(** * WatchAD.py: the lifecycle controller of the WatchAD detection engine

    A shallow embedding of [WatchAD.py].  The script is a sequence of calls
    into collaborators (the logger, the probes and bootstrap steps of
    [scripts.init_settings], [subprocess.call], [optparse]) glued together
    by [if]/[elif] and [sys.exit].  The embedding keeps that shape:

    - every collaborator call is an observable [event], recorded in order;
    - the collaborators themselves are an interface ([Collaborators]) over
      an arbitrary world state, so that a probe may answer differently
      each time it is asked;
    - [sys.exit] aborts the rest of the run, and its argument is the
      exit code the script asks for (the code [-1] is kept as written,
      whatever the operating system makes of it);
    - an exception aborts the rest of the run as well: the script has no
      [try], so the interpreter prints a traceback and the process ends
      with exit code 1;
    - a run that reaches the end of [main] exits with code 0.

    Two calls of the script can raise.  [subprocess.call] is given its
    command as one string with [shell=False]; where the platform takes
    such a string as the name of the program to run (POSIX), no such
    program is found and the call raises an [OSError]
    ([FileNotFoundError]); elsewhere it runs the command and returns its
    exit code.  Which of the two happens is up to the world.  And
    [parser.print_help()] reads [sys.argv[0]], which raises [IndexError]
    on an empty [sys.argv].  The probes and the bootstrap steps are taken
    to return.

    The command line goes through [optparse], of Python's standard
    library; its [parse_args] is modelled for the options that
    [parse_option] registers. *)

From Stdlib Require Import ZArith String Ascii List DecimalString.
From stdpp Require Import base option list strings gmap.

Local Open Scope string_scope.
Local Open Scope list_scope.
Local Open Scope Z_scope.

(** ** Observable events *)

Inductive level := INFO | ERROR.

(** The three read-only probes of [scripts.init_settings]. *)
Inductive probe := check_es_template | check_mongo_connection | check_mq_connection.

(** The seven bootstrap calls of [scripts.init_settings], with their
    arguments. *)
Inductive bootstrap_call :=
| init_es_template
| init_ldap_settings (domain server user password : string)
| get_all_dc_names (domain : string)
| init_default_settings (domain : string)
| init_sensitive_groups (domain : string)
| set_learning_end_time_setting
| set_crontab_tasks.

(** What [optparse] reports through [parser.error]. *)
Inductive parse_error :=
| no_such_option (opt : string)
| ambiguous_option (opt : string) (possibilities : list string)
| requires_argument (opt : string)
| takes_no_value (opt : string).

(** What a call of [subprocess.call] comes to: the exit code of the
    command, or an [OSError] because the command could not be run. *)
Inductive call_result :=
| returned (rc : Z)
| raised_OSError.

Inductive event :=
| Log (lvl : level) (msg : string)
| Probed (p : probe) (answer : bool)
| Bootstrap (c : bootstrap_call)
| Subprocess (cmd : string) (env : gmap string string) (r : call_result)
| PrintHelp
| ParserError (e : parse_error).

Definition trace := list event.

(** ** The effect monad: world state, trace, [SystemExit], exceptions *)

Inductive exception := OSError | IndexError.

Inductive result (A : Type) :=
| Return (a : A)
| SystemExit (code : Z)
| Raised (e : exception).
Arguments Return {A} a.
Arguments SystemExit {A} code.
Arguments Raised {A} e.

(** The exit code of the interpreter after running a script body; an
    uncaught exception ends the process with 1. *)
Definition exit_code {A} (r : result A) : Z :=
  match r with
  | Return _ => 0
  | SystemExit c => c
  | Raised _ => 1
  end.

Definition M (W A : Type) : Type := W -> result A * W * trace.

Definition ret {W A} (a : A) : M W A := fun w => (Return a, w, []).

Definition bind {W A B} (m : M W A) (k : A -> M W B) : M W B :=
  fun w =>
    match m w with
    | (Return a, w1, t1) =>
        match k a w1 with
        | (r, w2, t2) => (r, w2, t1 ++ t2)
        end
    | (SystemExit c, w1, t1) => (SystemExit c, w1, t1)
    | (Raised e, w1, t1) => (Raised e, w1, t1)
    end.

Declare Scope py_scope.
Delimit Scope py_scope with py.
Notation "x <- m ;; k" := (bind m (fun x => k))
  (at level 100, m at next level, right associativity) : py_scope.
Notation "m ;; k" := (bind m (fun _ => k))
  (at level 100, right associativity) : py_scope.
Local Open Scope py_scope.

(** Projections of a finished run. *)
Definition outcome {W A} (x : result A * W * trace) : result A := x.1.1.
Definition world_after {W A} (x : result A * W * trace) : W := x.1.2.
Definition trace_of {W A} (x : result A * W * trace) : trace := x.2.

(** ** The collaborators *)

(** [project_dir] comes from the module [_project_dir]; the probes and
    bootstrap steps from [scripts.init_settings]; [subprocess_call] is
    [subprocess.call(cmd, shell=False, env=env)]. *)
Class Collaborators (W : Type) := {
  project_dir : string;
  run_probe : probe -> W -> bool * W;
  run_bootstrap : bootstrap_call -> W -> W;
  subprocess_call : string -> gmap string string -> W -> call_result * W;
}.

Section Script.
Context {W : Type} `{Collaborators W}.

Definition sys_exit {A} (code : Z) : M W A := fun w => (SystemExit code, w, []).

Definition raise {A} (e : exception) : M W A := fun w => (Raised e, w, []).

Definition emit (e : event) : M W unit := fun w => (Return tt, w, [e]).

Definition logger_info (msg : string) : M W unit := emit (Log INFO msg).
Definition logger_error (msg : string) : M W unit := emit (Log ERROR msg).

Definition call_probe (p : probe) : M W bool :=
  fun w => let '(b, w') := run_probe p w in (Return b, w', [Probed p b]).

Definition call_bootstrap (c : bootstrap_call) : M W unit :=
  fun w => (Return tt, run_bootstrap c w, [Bootstrap c]).

Definition call_subprocess (cmd : string) (env : gmap string string) : M W Z :=
  fun w => let '(r, w') := subprocess_call cmd env w in
           (match r with
            | returned rc => Return rc
            | raised_OSError => Raised OSError
            end, w', [Subprocess cmd env r]).

(** ** The script *)

Definition ENGINE_PROCESS_NUM : Z := 5.

(** Python's [str] on an integer. *)
Definition str (n : Z) : string := NilZero.string_of_int (Z.to_int n).

Definition install (domain server user password : string) : M W unit :=
  logger_info "Install the WatchAD ..." ;;
  call_bootstrap init_es_template ;;
  call_bootstrap (init_ldap_settings domain server user password) ;;
  call_bootstrap (get_all_dc_names domain) ;;
  call_bootstrap (init_default_settings domain) ;;
  call_bootstrap (init_sensitive_groups domain) ;;
  call_bootstrap set_learning_end_time_setting ;;
  call_bootstrap set_crontab_tasks.

Definition check : M W bool :=
  logger_info "Checking the WatchAD environment ..." ;;
  es <- call_probe check_es_template ;;
  if negb es then ret false else
  mongo <- call_probe check_mongo_connection ;;
  if negb mongo then ret false else
  mq <- call_probe check_mq_connection ;;
  if negb mq then ret false else
  logger_info "OK!" ;;
  logger_info "Check the WatchAD environment successfully!" ;;
  ret true.

(** The two dict literals passed as [env=]. *)
Definition engine_env : gmap string string :=
  <["WATCHAD_ENGINE_NUM" := str ENGINE_PROCESS_NUM]>
    (<["WATCHAD_ENGINE_DIR" := project_dir]> ∅).

Definition status_env : gmap string string :=
  <["WATCHAD_ENGINE_DIR" := project_dir]> ∅.

Definition supervisord_cmd : string :=
  "supervisord -c " +:+ project_dir +:+ "/supervisor.conf".
Definition stop_all_cmd : string :=
  "supervisorctl -c " +:+ project_dir +:+ "/supervisor.conf stop all".
Definition shutdown_cmd : string :=
  "supervisorctl -c " +:+ project_dir +:+ "/supervisor.conf shutdown".
Definition status_cmd : string :=
  "supervisorctl -c " +:+ project_dir +:+ "/supervisor.conf status".

Definition start : M W unit :=
  ok <- check ;;
  (if negb ok then sys_exit (-1) else ret tt) ;;
  logger_info "Starting the WatchAD detect engine ..." ;;
  rsp <- call_subprocess supervisord_cmd engine_env ;;
  if rsp =? 0 then logger_info "Started!"
  else logger_error "Start failed.".

Definition stop : M W unit :=
  logger_info "Stopping the WatchAD detect engine ..." ;;
  stop_rsp <- call_subprocess stop_all_cmd engine_env ;;
  (if stop_rsp =? 0 then logger_info "Stopped detection processes."
   else logger_error "Stop failed.") ;;
  shutdown_rsp <- call_subprocess shutdown_cmd engine_env ;;
  if shutdown_rsp =? 0 then logger_info "Shutdown WatchAD."
  else logger_error "Shutdown WatchAD failed.".

Definition restart : M W unit :=
  stop ;;
  start.

Definition status : M W unit :=
  _ <- call_subprocess status_cmd status_env ;;
  ret tt.

End Script.

(** ** Python truthiness

    [options.install] is [None] or [True]; [options.domain] is [None] or a
    string, and the empty string is falsy. *)

Class Truthy (A : Type) := truthy : A -> bool.
#[export] Instance bool_truthy : Truthy bool := fun b => b.
#[export] Instance string_truthy : Truthy string :=
  fun s => match s with EmptyString => false | String _ _ => true end.
#[export] Instance option_truthy {A} `{Truthy A} : Truthy (option A) :=
  fun o => match o with Some a => truthy a | None => false end.

(** ** The command line: [parse_option] and [optparse]'s [parse_args] *)

(** The six verbs ([store_true] destinations) and the four install
    settings ([store] destinations). *)
Inductive verb := Install | Check | Start | Restart | Stop | Status.
Inductive setting := Domain | Server | Username | Password.

(** The [Values] object returned by [parse_args]; every attribute starts
    as [None]. *)
Module options.
Record t := mk {
  install : option bool;
  domain : option string;
  server : option string;
  username : option string;
  password : option string;
  check : option bool;
  start : option bool;
  restart : option bool;
  stop : option bool;
  status : option bool;
}.

Definition defaults : t :=
  mk None None None None None None None None None None.

(** [setattr(values, dest, True)] *)
Definition set_flag (v : verb) (o : t) : t :=
  match v with
  | Install => mk (Some true) (domain o) (server o) (username o) (password o)
                  (check o) (start o) (restart o) (stop o) (status o)
  | Check => mk (install o) (domain o) (server o) (username o) (password o)
                (Some true) (start o) (restart o) (stop o) (status o)
  | Start => mk (install o) (domain o) (server o) (username o) (password o)
                (check o) (Some true) (restart o) (stop o) (status o)
  | Restart => mk (install o) (domain o) (server o) (username o) (password o)
                  (check o) (start o) (Some true) (stop o) (status o)
  | Stop => mk (install o) (domain o) (server o) (username o) (password o)
               (check o) (start o) (restart o) (Some true) (status o)
  | Status => mk (install o) (domain o) (server o) (username o) (password o)
                 (check o) (start o) (restart o) (stop o) (Some true)
  end.

(** [setattr(values, dest, value)] *)
Definition set_value (s : setting) (x : string) (o : t) : t :=
  match s with
  | Domain => mk (install o) (Some x) (server o) (username o) (password o)
                 (check o) (start o) (restart o) (stop o) (status o)
  | Server => mk (install o) (domain o) (Some x) (username o) (password o)
                 (check o) (start o) (restart o) (stop o) (status o)
  | Username => mk (install o) (domain o) (server o) (Some x) (password o)
                   (check o) (start o) (restart o) (stop o) (status o)
  | Password => mk (install o) (domain o) (server o) (username o) (Some x)
                   (check o) (start o) (restart o) (stop o) (status o)
  end.

(** [getattr(values, dest)] for a verb flag. *)
Definition flag (v : verb) (o : t) : option bool :=
  match v with
  | Install => install o
  | Check => check o
  | Start => start o
  | Restart => restart o
  | Stop => stop o
  | Status => status o
  end.
End options.

Inductive action := store_true (dest : verb) | store (dest : setting) | help.

Definition takes_value (a : action) : bool :=
  match a with store _ => true | _ => false end.

(** One [add_option] call: its option strings and its action. *)
Record option_def := add_option { opt_strings : list string; opt_action : action }.

(** [parse_option]: the options of the parser, in the order in which they
    are registered.  [OptionParser] registers [-h]/[--help] itself, first. *)
Definition parse_option : list option_def :=
  [ add_option ["-h"; "--help"] help;
    add_option ["--install"] (store_true Install);
    add_option ["-d"; "--domain"] (store Domain);
    add_option ["-s"; "--ldap-server"] (store Server);
    add_option ["-u"; "--domain-user"] (store Username);
    add_option ["-p"; "--domain-passwd"] (store Password);
    add_option ["--check"] (store_true Check);
    add_option ["--start"] (store_true Start);
    add_option ["--restart"] (store_true Restart);
    add_option ["--stop"] (store_true Stop);
    add_option ["--status"] (store_true Status) ].

Definition startswith (s p : string) : bool := String.prefix p s.

(** The parser's [_long_opt] and [_short_opt] dictionaries. *)
Definition _long_opt (parser : list option_def) : list (string * action) :=
  flat_map (fun d => map (fun o => (o, opt_action d))
                         (filter (fun o => startswith o "--") (opt_strings d)))
           parser.

Definition _short_opt (parser : list option_def) : list (string * action) :=
  flat_map (fun d => map (fun o => (o, opt_action d))
                         (filter (fun o => negb (startswith o "--")) (opt_strings d)))
           parser.

Fixpoint get (k : string) (d : list (string * action)) : option action :=
  match d with
  | [] => None
  | (k', a) :: d' => if String.eqb k k' then Some a else get k d'
  end.

(** [possibilities.sort()] *)
Fixpoint sorted_insert (s : string) (l : list string) : list string :=
  match l with
  | [] => [s]
  | x :: l' => if String.leb s x then s :: l else x :: sorted_insert s l'
  end.
Definition sort (l : list string) : list string := fold_right sorted_insert [] l.

(** [_match_abbrev]: an exact match, or else the unique option that [s]
    abbreviates. *)
Definition _match_abbrev (s : string) (wordmap : list (string * action))
  : string + parse_error :=
  match get s wordmap with
  | Some _ => inl s
  | None =>
      match filter (fun word => startswith word s) (map fst wordmap) with
      | [word] => inl word
      | [] => inr (no_such_option s)
      | possibilities => inr (ambiguous_option s (sort possibilities))
      end
  end.

(** [arg.split("=", 1)] when ["=" in arg]: the text before the first [=]
    and, if there is one, the text after it. *)
Fixpoint split_eq (arg : string) : string * option string :=
  match arg with
  | EmptyString => (EmptyString, None)
  | String c rest =>
      if Ascii.eqb c "="%char then (EmptyString, Some rest)
      else let '(opt, next_arg) := split_eq rest in (String c opt, next_arg)
  end.

Inductive parsed :=
| Parsed (values : options.t) (args : list string)
| HelpRequested
| Rejected (e : parse_error).

(** What [_process_short_opts] does with one cluster [-abc]: [chars] is
    the text after the dash, [next] the argument that follows on the
    command line, if any. *)
Inductive short_result :=
| ShortDone (values : options.t) (took_next : bool)
| ShortHelp
| ShortError (e : parse_error).

Fixpoint _process_short_opts (parser : list option_def) (chars : string)
    (next : option string) (values : options.t) : short_result :=
  match chars with
  | EmptyString => ShortDone values false
  | String ch rest =>
      let opt := String "-" (String ch EmptyString) in
      match get opt (_short_opt parser) with
      | None => ShortError (no_such_option opt)
      | Some (store dest) =>
          match rest, next with
          | String _ _, _ => ShortDone (options.set_value dest rest values) false
          | EmptyString, Some value => ShortDone (options.set_value dest value values) true
          | EmptyString, None => ShortError (requires_argument opt)
          end
      | Some (store_true dest) =>
          _process_short_opts parser rest next (options.set_flag dest values)
      | Some help => ShortHelp
      end
  end.

(** [_process_args] together with [_process_long_opt]: the loop over the
    remaining arguments [rargs]; [largs] collects the positional ones. *)
Fixpoint _process_args (parser : list option_def) (rargs largs : list string)
    (values : options.t) : parsed :=
  match rargs with
  | [] => Parsed values largs
  | arg :: rargs' =>
      if String.eqb arg "--" then Parsed values (largs ++ rargs')
      else if startswith arg "--" then
        let '(opt0, explicit) := split_eq arg in
        match _match_abbrev opt0 (_long_opt parser) with
        | inr e => Rejected e
        | inl opt =>
            match get opt (_long_opt parser), explicit, rargs' with
            | Some (store dest), Some value, _ =>
                _process_args parser rargs' largs (options.set_value dest value values)
            | Some (store dest), None, value :: rargs'' =>
                _process_args parser rargs'' largs (options.set_value dest value values)
            | Some (store dest), None, [] => Rejected (requires_argument opt)
            | Some _, Some _, _ => Rejected (takes_no_value opt)
            | Some (store_true dest), None, _ =>
                _process_args parser rargs' largs (options.set_flag dest values)
            | Some help, None, _ => HelpRequested
            | None, _, _ => Rejected (no_such_option opt)
            end
        end
      else if startswith arg "-" && (1 <? String.length arg)%nat then
        match _process_short_opts parser (String.substring 1 (String.length arg - 1) arg)
                                  (head rargs') values with
        | ShortError e => Rejected e
        | ShortHelp => HelpRequested
        | ShortDone values' false => _process_args parser rargs' largs values'
        | ShortDone values' true =>
            match rargs' with
            | _ :: rargs'' => _process_args parser rargs'' largs values'
            | [] => Parsed values' largs
            end
        end
      else _process_args parser rargs' (largs ++ [arg]) values
  end.

Section Main.
Context {W : Type} `{Collaborators W}.

(** [parser.print_help()]: the help text goes to stdout; building it
    reads [sys.argv[0]]. *)
Definition print_help (argv : list string) : M W unit :=
  match argv with
  | [] => raise IndexError
  | _ :: _ => emit PrintHelp
  end.

(** [parser.parse_args()]: [print_help] and exit 0 on [-h]; usage and
    message on stderr and exit 2 on an error.  It is reached with a
    program name in [sys.argv]. *)
Definition parse_args (parser : list option_def) (args : list string)
  : M W (options.t * list string) :=
  match _process_args parser args [] options.defaults with
  | Parsed values args' => ret (values, args')
  | HelpRequested => emit PrintHelp ;; sys_exit 0
  | Rejected e => emit (ParserError e) ;; sys_exit 2
  end.

(** The [if]/[elif] chain of [main], on the parsed options.  Past the
    guard of the install branch the four settings are non-empty strings,
    and [install] receives them as they are. *)
Definition dispatch (o : options.t) : M W unit :=
  if truthy (options.install o) then
    (if negb (truthy (options.domain o)) || negb (truthy (options.server o))
        || negb (truthy (options.username o)) || negb (truthy (options.password o))
     then
       logger_error "WatchAD install action must provide domain, server, user and password params." ;;
       sys_exit 1
     else ret tt) ;;
    install (default "" (options.domain o)) (default "" (options.server o))
            (default "" (options.username o)) (default "" (options.password o))
  else if truthy (options.check o) then
    _ <- check ;; ret tt
  else if truthy (options.start o) then
    start
  else if truthy (options.restart o) then
    restart
  else if truthy (options.stop o) then
    stop
  else if truthy (options.status o) then
    status
  else ret tt.

(** [main], given [sys.argv]. *)
Definition main (argv : list string) : M W unit :=
  let parser := parse_option in
  (if (length argv <? 2)%nat then
     logger_error "WatchAD must run with an action." ;;
     print_help argv ;;
     sys_exit 1
   else ret tt) ;;
  parsed_args <- parse_args parser (tail argv) ;;
  let '(opts, args) := parsed_args in
  dispatch opts.

End Main.

(** ** Reading a trace *)

(** The commands handed to [subprocess.call], in order. *)
Definition subprocess_cmds (t : trace) : list string :=
  omap (fun e => match e with Subprocess cmd _ _ => Some cmd | _ => None end) t.

(** The probes that were asked, in order. *)
Definition probes_of (t : trace) : list probe :=
  omap (fun e => match e with Probed p _ => Some p | _ => None end) t.

(** The bootstrap calls that were made, in order. *)
Definition bootstrap_calls (t : trace) : list bootstrap_call :=
  omap (fun e => match e with Bootstrap c => Some c | _ => None end) t.

(** ** A laboratory world

    Probes answer from three switches, every supervisor command comes
    to the same result, and the world remembers which bootstrap calls
    reached it. *)
Module Lab.
Record world := mk {
  es_ready : bool;
  mongo_ready : bool;
  mq_ready : bool;
  supervisor : call_result;
  installed : list bootstrap_call;
}.

#[global] Instance collaborators : Collaborators world := {|
  project_dir := "/opt/WatchAD";
  run_probe p w :=
    (match p with
     | check_es_template => es_ready w
     | check_mongo_connection => mongo_ready w
     | check_mq_connection => mq_ready w
     end, w);
  run_bootstrap c w :=
    mk (es_ready w) (mongo_ready w) (mq_ready w) (supervisor w) (installed w ++ [c]);
  subprocess_call cmd env w := (supervisor w, w);
|}.

(** Everything ready, supervisor succeeds. *)
Definition healthy : world := mk true true true (returned 0) [].
(** The message queue is down. *)
Definition mq_down : world := mk true true false (returned 0) [].
(** Everything ready, but the supervisor exits with 1. *)
Definition supervisor_fails : world := mk true true true (returned 1) [].
(** Everything ready, on a platform that takes the command string as the
    name of a program: no supervisor command can be run. *)
Definition posix : world := mk true true true raised_OSError [].
End Lab.


(** ** The precedence of verbs, as the specification words it

    Install, check, start, restart, stop, status: the first verb of this
    list whose flag is set is the one that runs. *)
Definition precedence : list verb := [Install; Check; Start; Restart; Stop; Status].

Definition selected_verb (o : options.t) : option verb :=
  head (filter (fun v => truthy (options.flag v o)) precedence).

(** The options in which [v] is the only verb supplied: every other verb
    flag is back at its default, the settings are untouched. *)
Definition only (v : verb) (o : options.t) : options.t :=
  let keep v' := match v, v' with
                 | Install, Install | Check, Check | Start, Start
                 | Restart, Restart | Stop, Stop | Status, Status => options.flag v' o
                 | _, _ => None
                 end in
  options.mk (keep Install) (options.domain o) (options.server o)
             (options.username o) (options.password o)
             (keep Check) (keep Start) (keep Restart) (keep Stop) (keep Status).

(** ** Running one operation to completion, then another

    The specification's reading of restart: the first operation runs to
    its end, whatever its outcome; then the second runs in the world the
    first has left; the observations are those of the first followed by
    those of the second. *)
Definition sequentially {W A B} (first : M W A) (second : M W B)
  : W -> result B * W * trace :=
  fun w =>
    let x := first w in
    let y := second (world_after x) in
    (outcome y, world_after y, trace_of x ++ trace_of y).

(** ** What crosses the boundary to the supervisor *)

Section Boundary.
Context {W : Type} `{Collaborators W}.

(** The claim of the specification about one observed event: a
    supervisor invocation carries exactly two variables, the engine root
    directory and the worker count, the latter being the constant. *)
Definition two_variables (e : event) : Prop :=
  match e with
  | Subprocess _ env _ =>
      size env = 2%nat
      ∧ env !! "WATCHAD_ENGINE_DIR" = Some project_dir
      ∧ env !! "WATCHAD_ENGINE_NUM" = Some (str ENGINE_PROCESS_NUM)
  | _ => True
  end.

(** The status query: the status command, with the engine root directory
    as its only variable. *)
Definition status_query (e : event) : Prop :=
  match e with
  | Subprocess cmd env _ =>
      cmd = status_cmd ∧ env = {[ "WATCHAD_ENGINE_DIR" := project_dir ]}
  | _ => False
  end.

End Boundary.

(** ** The verbs one at a time *)

(** The messages logged at level [ERROR], in order. *)
Definition errors_logged (t : trace) : list string :=
  omap (fun e => match e with Log ERROR msg => Some msg | _ => None end) t.

(** The flag that [parse_option] registers for a verb. *)
Definition verb_flag (v : verb) : string :=
  match v with
  | Install => "--install"
  | Check => "--check"
  | Start => "--start"
  | Restart => "--restart"
  | Stop => "--stop"
  | Status => "--status"
  end.

(** An argument that [optparse] takes as positional wherever it reads it
    as an argument of its own: it does not begin with a dash. *)
Definition positional (arg : string) : bool := negb (startswith arg "-").

(** The registered long options that [s] is a prefix of: what
    [_match_abbrev] chooses from when [s] is not itself registered. *)
Definition completions (s : string) : list string :=
  filter (fun word => startswith word s) (map fst (_long_opt parse_option)).

Section Alone.
Context {W : Type} `{Collaborators W}.

(** What the branch of a verb in [main] runs when no setting is given:
    the function of the verb, and for install the refusal of its guard. *)
Definition alone (v : verb) : M W unit :=
  match v with
  | Install =>
      logger_error "WatchAD install action must provide domain, server, user and password params." ;;
      sys_exit 1
  | Check => _ <- check ;; ret tt
  | Start => start
  | Restart => restart
  | Stop => stop
  | Status => status
  end.

(** What each verb stands for, whatever else is on the command line:
    install bootstraps with the four settings when all of them are there
    and is refused otherwise; the other five are the functions of their
    names. *)
Definition run_verb (v : verb) (o : options.t) : M W unit :=
  match v with
  | Install =>
      if truthy (options.domain o) && truthy (options.server o)
         && truthy (options.username o) && truthy (options.password o)
      then install (default "" (options.domain o)) (default "" (options.server o))
                   (default "" (options.username o)) (default "" (options.password o))
      else
        logger_error "WatchAD install action must provide domain, server, user and password params." ;;
        sys_exit 1
  | Check => _ <- check ;; ret tt
  | Start => start
  | Restart => restart
  | Stop => stop
  | Status => status
  end.

End Alone.

(** * Properties *)

Section MonadFacts.
Context {W : Type}.

Lemma bind_returns {A B} (m : M W A) (k : A -> M W B) w a w1 t1 :
  m w = (Return a, w1, t1) ->
  bind m k w = (outcome (k a w1), world_after (k a w1), t1 ++ trace_of (k a w1)).
Proof.
  intros Hm. unfold bind. rewrite Hm.
  destruct (k a w1) as [[r w2] t2]. reflexivity.
Qed.

Lemma bind_exits {A B} (m : M W A) (k : A -> M W B) w c w1 t1 :
  m w = (SystemExit c, w1, t1) -> bind m k w = (SystemExit c, w1, t1).
Proof. intros Hm. unfold bind. now rewrite Hm. Qed.

Lemma bind_raises {A B} (m : M W A) (k : A -> M W B) w e w1 t1 :
  m w = (Raised e, w1, t1) -> bind m k w = (Raised e, w1, t1).
Proof. intros Hm. unfold bind. now rewrite Hm. Qed.

(** A property of every event of [m] and of every continuation holds of
    every event of [bind m k]. *)
Lemma bind_trace_Forall {A B} (P : event -> Prop) (m : M W A) (k : A -> M W B) w :
  Forall P (trace_of (m w)) ->
  (forall a w', Forall P (trace_of (k a w'))) ->
  Forall P (trace_of (bind m k w)).
Proof.
  intros Hm Hk. unfold bind.
  destruct (m w) as [[[a|c|e] w1] t1]; cbn in *.
  - specialize (Hk a w1). destruct (k a w1) as [[r w2] t2]; cbn in *.
    apply Forall_app; auto.
  - exact Hm.
  - exact Hm.
Qed.

Lemma ret_trace_Forall {A} (P : event -> Prop) (a : A) (w : W) :
  Forall P (trace_of (ret a w)).
Proof. constructor. Qed.

End MonadFacts.

Section MainFacts.
Context {W : Type} `{Collaborators W}.

(** *** main *)

(** With the program name alone, the refusal.  With nothing at all in
    [sys.argv], the help text cannot be built. *)
Lemma main_without_arguments argv w :
  (length argv < 2)%nat ->
  main argv w =
    match argv with
    | [] => (Raised IndexError, w, [Log ERROR "WatchAD must run with an action."])
    | _ :: _ =>
        (SystemExit 1, w, [Log ERROR "WatchAD must run with an action."; PrintHelp])
    end.
Proof.
  intros Hlen. unfold main. apply Nat.ltb_lt in Hlen. rewrite Hlen.
  now destruct argv.
Qed.

(** Past the argument count and a successful parse, [main] is its
    [if]/[elif] chain. *)
Lemma main_parsed argv o args w :
  (2 <= length argv)%nat ->
  _process_args parse_option (tail argv) [] options.defaults = Parsed o args ->
  main argv w = dispatch o w.
Proof.
  intros Hlen Hparse. unfold main, parse_args.
  apply Nat.ltb_ge in Hlen. rewrite Hlen, Hparse.
  unfold bind, ret. cbn.
  destruct (dispatch o w) as [[r w'] t]. reflexivity.
Qed.

(** [--start] alone on the command line runs [start]. *)
Lemma main_start prog w : main [prog; "--start"] w = start w.
Proof.
  rewrite (main_parsed [prog; "--start"] (options.set_flag Start options.defaults) []);
    [reflexivity|cbn; lia|reflexivity].
Qed.

End MainFacts.

Section Operations.
Context {W : Type} `{Collaborators W}.

(** Unfolds the script down to the collaborators' answers. *)
Ltac run_script :=
  unfold outcome, world_after, trace_of, bind, ret, sys_exit, logger_info,
    logger_error, emit, call_probe, call_bootstrap, call_subprocess; cbn.

(** *** check *)

(** The run of [check], by the answers of the probes it reaches. *)
Lemma check_run w :
  check w =
    let a1 := run_probe check_es_template w in
    let a2 := run_probe check_mongo_connection a1.2 in
    let a3 := run_probe check_mq_connection a2.2 in
    let hello := Log INFO "Checking the WatchAD environment ..." in
    if negb a1.1 then
      (Return false, a1.2, [hello; Probed check_es_template false])
    else if negb a2.1 then
      (Return false, a2.2,
       [hello; Probed check_es_template true; Probed check_mongo_connection false])
    else if negb a3.1 then
      (Return false, a3.2,
       [hello; Probed check_es_template true; Probed check_mongo_connection true;
        Probed check_mq_connection false])
    else
      (Return true, a3.2,
       [hello; Probed check_es_template true; Probed check_mongo_connection true;
        Probed check_mq_connection true; Log INFO "OK!";
        Log INFO "Check the WatchAD environment successfully!"]).
Proof.
  unfold check. run_script.
  destruct (run_probe check_es_template w) as [[] w1]; cbn; [|reflexivity].
  destruct (run_probe check_mongo_connection w1) as [[] w2]; cbn; [|reflexivity].
  destruct (run_probe check_mq_connection w2) as [[] w3]; reflexivity.
Qed.

Lemma check_returns w : exists b, outcome (check w) = Return b.
Proof.
  rewrite check_run. cbn.
  repeat match goal with |- context [negb ?b] => destruct b; cbn end; eauto.
Qed.

Lemma check_no_subprocess w : subprocess_cmds (trace_of (check w)) = [].
Proof.
  rewrite check_run. cbn.
  repeat match goal with |- context [negb ?b] => destruct b; cbn end; reflexivity.
Qed.

(** C3. [check] returns true exactly when the three probes (search-index
    template, document store, message queue) all answer true, and it asks
    them in that order only up to the first that answers false. *)
Theorem check_all_or_first_failure w :
  let es := run_probe check_es_template w in
  let mongo := run_probe check_mongo_connection es.2 in
  let mq := run_probe check_mq_connection mongo.2 in
  outcome (check w) = Return (es.1 && mongo.1 && mq.1)
  ∧ probes_of (trace_of (check w)) =
      (if negb es.1 then [check_es_template]
       else if negb mongo.1 then [check_es_template; check_mongo_connection]
       else [check_es_template; check_mongo_connection; check_mq_connection]).
Proof.
  cbn zeta. rewrite check_run. cbn zeta.
  destruct (run_probe check_es_template w) as [[] w1]; cbn; [|done].
  destruct (run_probe check_mongo_connection w1) as [[] w2]; cbn; [|done].
  destruct (run_probe check_mq_connection w2) as [[] w3]; cbn; done.
Qed.

(** *** start *)

Lemma start_when_check_fails w w1 t1 :
  check w = (Return false, w1, t1) -> start w = (SystemExit (-1), w1, t1).
Proof.
  intros Hc. unfold start.
  rewrite (bind_returns _ _ _ _ _ _ Hc). cbn. now rewrite app_nil_r.
Qed.

Lemma start_when_check_passes w w1 t1 :
  check w = (Return true, w1, t1) ->
  start w =
    let rsp := subprocess_call supervisord_cmd engine_env w1 in
    match rsp.1 with
    | returned rc =>
        (Return tt, rsp.2,
         t1 ++ [Log INFO "Starting the WatchAD detect engine ...";
                Subprocess supervisord_cmd engine_env (returned rc);
                if rc =? 0 then Log INFO "Started!" else Log ERROR "Start failed."])
    | raised_OSError =>
        (Raised OSError, rsp.2,
         t1 ++ [Log INFO "Starting the WatchAD detect engine ...";
                Subprocess supervisord_cmd engine_env raised_OSError])
    end.
Proof.
  intros Hc. unfold start.
  rewrite (bind_returns _ _ _ _ _ _ Hc). run_script.
  destruct (subprocess_call supervisord_cmd engine_env w1) as [[rc|] w2]; cbn;
    [|reflexivity].
  destruct (rc =? 0); reflexivity.
Qed.

(** C1. Where [check] returns false, [start] ends in [sys.exit(-1)] with
    nothing observed beyond what [check] did, and no supervisor command
    was run. *)
Theorem start_refused_when_check_fails w :
  outcome (check w) = Return false ->
  start w = (SystemExit (-1), world_after (check w), trace_of (check w))
  ∧ subprocess_cmds (trace_of (start w)) = []
  ∧ forall prog, exit_code (outcome (main [prog; "--start"] w)) = -1.
Proof.
  intros Hc.
  assert (Hs : start w = (SystemExit (-1), world_after (check w), trace_of (check w))).
  { apply start_when_check_fails.
    destruct (check w) as [[r w1] t1]; cbn in *. now subst. }
  split; [exact Hs|]. split.
  - rewrite Hs. apply check_no_subprocess.
  - intros prog. rewrite main_start, Hs. reflexivity.
Qed.

(** C7. Where [check] passes and the supervisor exits with a non-zero
    code, [start] logs "Start failed." after its single supervisor
    command and returns; the process ends with exit code 0. *)
Theorem start_failure_is_logged_only w w1 t1 rc w2 :
  check w = (Return true, w1, t1) ->
  subprocess_call supervisord_cmd engine_env w1 = (returned rc, w2) ->
  rc ≠ 0 ->
  start w = (Return tt, w2,
             t1 ++ [Log INFO "Starting the WatchAD detect engine ...";
                    Subprocess supervisord_cmd engine_env (returned rc);
                    Log ERROR "Start failed."])
  ∧ subprocess_cmds (trace_of (start w)) = [supervisord_cmd]
  ∧ forall prog, exit_code (outcome (main [prog; "--start"] w)) = 0.
Proof.
  intros Hc Hsub Hrc.
  pose proof (check_no_subprocess w) as Hno. rewrite Hc in Hno. cbn in Hno.
  assert (Hs : start w = (Return tt, w2,
             t1 ++ [Log INFO "Starting the WatchAD detect engine ...";
                    Subprocess supervisord_cmd engine_env (returned rc);
                    Log ERROR "Start failed."])).
  { rewrite (start_when_check_passes _ _ _ Hc), Hsub. cbn.
    apply Z.eqb_neq in Hrc. now rewrite Hrc. }
  split; [exact Hs|]. split.
  - rewrite Hs. cbn. unfold subprocess_cmds in *. rewrite omap_app, Hno. reflexivity.
  - intros prog. rewrite main_start, Hs. reflexivity.
Qed.

(** *** stop *)

(** The run of [stop], by what its two supervisor commands come to. *)
Lemma stop_run w :
  stop w =
    let r1 := subprocess_call stop_all_cmd engine_env w in
    let r2 := subprocess_call shutdown_cmd engine_env r1.2 in
    let hello := Log INFO "Stopping the WatchAD detect engine ..." in
    match r1.1 with
    | raised_OSError =>
        (Raised OSError, r1.2, [hello; Subprocess stop_all_cmd engine_env raised_OSError])
    | returned rc1 =>
        let stopped := if rc1 =? 0 then Log INFO "Stopped detection processes."
                       else Log ERROR "Stop failed." in
        match r2.1 with
        | raised_OSError =>
            (Raised OSError, r2.2,
             [hello; Subprocess stop_all_cmd engine_env (returned rc1); stopped;
              Subprocess shutdown_cmd engine_env raised_OSError])
        | returned rc2 =>
            (Return tt, r2.2,
             [hello; Subprocess stop_all_cmd engine_env (returned rc1); stopped;
              Subprocess shutdown_cmd engine_env (returned rc2);
              if rc2 =? 0 then Log INFO "Shutdown WatchAD."
              else Log ERROR "Shutdown WatchAD failed."])
        end
    end.
Proof.
  unfold stop. run_script.
  destruct (subprocess_call stop_all_cmd engine_env w) as [[rc1|] w1]; cbn;
    [|reflexivity].
  destruct (rc1 =? 0); cbn;
    destruct (subprocess_call shutdown_cmd engine_env w1) as [[rc2|] w2]; cbn;
    try reflexivity; destruct (rc2 =? 0); reflexivity.
Qed.

(** [stop] never calls [sys.exit]: it returns, or an [OSError] ends it. *)
Lemma stop_outcome w :
  outcome (stop w) = Return tt ∨ outcome (stop w) = Raised OSError.
Proof.
  rewrite stop_run. cbn zeta.
  destruct (subprocess_call stop_all_cmd engine_env w).1; [|now right].
  destruct (subprocess_call shutdown_cmd engine_env _).1; [now left|now right].
Qed.


(** *** install *)

(** C5. [install] makes exactly seven bootstrap calls, in this order:
    index template, directory-service settings, domain-controller names,
    default settings, sensitive groups, learning end time, scheduled
    tasks; the scheduled tasks come last. *)
Theorem install_seven_steps_in_order domain server user password w :
  let steps := [init_es_template;
                init_ldap_settings domain server user password;
                get_all_dc_names domain;
                init_default_settings domain;
                init_sensitive_groups domain;
                set_learning_end_time_setting;
                set_crontab_tasks] in
  install domain server user password w =
    (Return tt,
     foldl (fun w' c => run_bootstrap c w') w steps,
     Log INFO "Install the WatchAD ..." :: map Bootstrap steps)
  ∧ bootstrap_calls (trace_of (install domain server user password w)) = steps
  ∧ length steps = 7%nat
  ∧ last steps = Some set_crontab_tasks.
Proof. repeat split. Qed.

(** *** restart *)


End Operations.

Section Invocation.
Context {W : Type} `{Collaborators W}.

Lemma dispatch_incomplete_install o w :
  truthy (options.install o) = true ->
  truthy (options.domain o) && truthy (options.server o)
    && truthy (options.username o) && truthy (options.password o) = false ->
  dispatch o w =
    (SystemExit 1, w,
     [Log ERROR "WatchAD install action must provide domain, server, user and password params."]).
Proof.
  intros Hinstall Hmissing. unfold dispatch. rewrite Hinstall.
  replace (negb (truthy (options.domain o)) || negb (truthy (options.server o))
           || negb (truthy (options.username o)) || negb (truthy (options.password o)))
    with true.
  - reflexivity.
  - destruct (truthy (options.domain o)), (truthy (options.server o)),
      (truthy (options.username o)), (truthy (options.password o));
      cbn in *; congruence.
Qed.

(** C4. An invocation whose parsed options have [install] set and one of
    domain, server, username, password missing or empty logs the error
    and ends in [sys.exit(1)]: no bootstrap call, no probe, no supervisor
    command, the world untouched. *)
Theorem install_rejects_incomplete_config argv o args w :
  (2 <= length argv)%nat ->
  _process_args parse_option (tail argv) [] options.defaults = Parsed o args ->
  truthy (options.install o) = true ->
  truthy (options.domain o) && truthy (options.server o)
    && truthy (options.username o) && truthy (options.password o) = false ->
  main argv w =
    (SystemExit 1, w,
     [Log ERROR "WatchAD install action must provide domain, server, user and password params."])
  ∧ bootstrap_calls (trace_of (main argv w)) = []
  ∧ exit_code (outcome (main argv w)) = 1.
Proof.
  intros Hlen Hparse Hinstall Hmissing.
  rewrite (main_parsed _ _ _ _ Hlen Hparse).
  rewrite (dispatch_incomplete_install _ _ Hinstall Hmissing).
  repeat split.
Qed.

(** The chain looks at the verb flags in the order of [precedence] and at
    nothing after the first that is set. *)
Lemma dispatch_only o v w :
  selected_verb o = Some v -> dispatch o w = dispatch (only v o) w.
Proof.
  destruct o as [i d s u p c st rs sp stt].
  unfold selected_verb, dispatch, only. cbn -[install check start restart stop status].
  destruct i as [[]|]; cbn -[install check start restart stop status];
    [intros [= <-]; reflexivity| |];
  (destruct c as [[]|]; cbn -[install check start restart stop status];
    [intros [= <-]; reflexivity| |]);
  (destruct st as [[]|]; cbn -[install check start restart stop status];
    [intros [= <-]; reflexivity| |]);
  (destruct rs as [[]|]; cbn -[install check start restart stop status];
    [intros [= <-]; reflexivity| |]);
  (destruct sp as [[]|]; cbn -[install check start restart stop status];
    [intros [= <-]; reflexivity| |]);
  (destruct stt as [[]|]; cbn -[install check start restart stop status];
    [intros [= <-]; reflexivity| |]);
  discriminate.
Qed.

Lemma bind_ret_l {A B} (a : A) (k : A -> M W B) w : bind (ret a) k w = k a w.
Proof. unfold bind, ret. now destruct (k a w) as [[r w'] t]. Qed.

(** The chain runs what the first set verb stands for. *)
Lemma dispatch_selected o v w :
  selected_verb o = Some v -> dispatch o w = run_verb v o w.
Proof.
  destruct o as [i d s u p c st rs sp stt].
  unfold selected_verb, dispatch, run_verb.
  cbn -[install check start restart stop status].
  destruct i as [[]|]; cbn -[install check start restart stop status].
  { intros [= <-].
    destruct (truthy d), (truthy s), (truthy u), (truthy p);
      cbn -[install]; solve [apply bind_ret_l | reflexivity]. }
  all: (destruct c as [[]|]; cbn -[install check start restart stop status];
        [intros [= <-]; reflexivity| |]);
       (destruct st as [[]|]; cbn -[install check start restart stop status];
        [intros [= <-]; reflexivity| |]);
       (destruct rs as [[]|]; cbn -[install check start restart stop status];
        [intros [= <-]; reflexivity| |]);
       (destruct sp as [[]|]; cbn -[install check start restart stop status];
        [intros [= <-]; reflexivity| |]);
       (destruct stt as [[]|]; cbn -[install check start restart stop status];
        [intros [= <-]; reflexivity| |]);
       discriminate.
Qed.

(** C10. When several verb flags are supplied, [main] runs one verb, the
    first of them in the order install, check, start, restart, stop,
    status: its run is the run of what that verb stands for, the same as
    if only that flag had been supplied; the others change nothing and
    are not reported. *)
Theorem first_verb_in_precedence_wins argv o args v w :
  (2 <= length argv)%nat ->
  _process_args parse_option (tail argv) [] options.defaults = Parsed o args ->
  selected_verb o = Some v ->
  main argv w = run_verb v o w
  ∧ main argv w = dispatch (only v o) w
  ∧ options.flag v (only v o) = options.flag v o
  ∧ (forall v', v' <> v -> options.flag v' (only v o) = None).
Proof.
  intros Hlen Hparse Hsel.
  rewrite (main_parsed _ _ _ _ Hlen Hparse).
  split; [now apply dispatch_selected|].
  split; [now apply dispatch_only|].
  split; [now destruct v|].
  intros v' Hne. destruct v, v'; try reflexivity; congruence.
Qed.

(** With arguments but no verb among them, [main] does nothing at all. *)
Lemma main_without_verb argv o args w :
  (2 <= length argv)%nat ->
  _process_args parse_option (tail argv) [] options.defaults = Parsed o args ->
  selected_verb o = None ->
  main argv w = (Return tt, w, []).
Proof.
  intros Hlen Hparse Hsel.
  rewrite (main_parsed _ _ _ _ Hlen Hparse).
  destruct o as [i d s u p c st rs sp stt].
  unfold selected_verb in Hsel. unfold dispatch.
  cbn -[install check start restart stop status] in *.
  destruct i as [[]|]; cbn -[install check start restart stop status] in *;
    try discriminate;
  (destruct c as [[]|]; cbn -[install check start restart stop status] in *;
    try discriminate);
  (destruct st as [[]|]; cbn -[install check start restart stop status] in *;
    try discriminate);
  (destruct rs as [[]|]; cbn -[install check start restart stop status] in *;
    try discriminate);
  (destruct sp as [[]|]; cbn -[install check start restart stop status] in *;
    try discriminate);
  (destruct stt as [[]|]; cbn -[install check start restart stop status] in *;
    try discriminate);
  reflexivity.
Qed.

(** C8. The command line [WatchAD.py -d corp.example.com] names no verb;
    [main] returns without logging, without printing the help text, and
    the process ends with exit code 0. *)
Theorem main_setting_without_verb_is_silent w :
  main ["WatchAD.py"; "-d"; "corp.example.com"] w = (Return tt, w, [])
  ∧ exit_code (outcome (main ["WatchAD.py"; "-d"; "corp.example.com"] w)) = 0.
Proof.
  assert (Hrun : main ["WatchAD.py"; "-d"; "corp.example.com"] w = (Return tt, w, [])).
  { eapply main_without_verb; [cbn; lia|vm_compute; reflexivity|reflexivity]. }
  rewrite Hrun. split; reflexivity.
Qed.

End Invocation.

Section Environment.
Context {W : Type} `{Collaborators W}.

Lemma engine_env_two_variables :
  size engine_env = 2%nat
  ∧ engine_env !! "WATCHAD_ENGINE_DIR" = Some project_dir
  ∧ engine_env !! "WATCHAD_ENGINE_NUM" = Some "5".
Proof.
  unfold engine_env. split; [|split].
  - rewrite map_size_insert_None.
    + now rewrite map_size_insert_None, map_size_empty by apply lookup_empty.
    + now rewrite lookup_insert_ne, lookup_empty.
  - now rewrite lookup_insert_ne, lookup_insert_eq.
  - now rewrite lookup_insert_eq.
Qed.

Lemma status_env_one_variable :
  status_env = {[ "WATCHAD_ENGINE_DIR" := project_dir ]}
  ∧ size status_env = 1%nat
  ∧ status_env !! "WATCHAD_ENGINE_NUM" = None.
Proof.
  unfold status_env. rewrite insert_empty.
  split; [reflexivity|split].
  - apply map_size_singleton.
  - now apply lookup_singleton_ne.
Qed.

(** Trace invariants of the primitive calls. *)
Lemma emit_trace_Forall (P : event -> Prop) e (w : W) :
  P e -> Forall P (trace_of (emit e w)).
Proof. intros He. repeat constructor. exact He. Qed.

Lemma sys_exit_trace_Forall {A} (P : event -> Prop) c (w : W) :
  Forall P (trace_of (sys_exit (A:=A) c w)).
Proof. constructor. Qed.

Lemma raise_trace_Forall {A} (P : event -> Prop) e (w : W) :
  Forall P (trace_of (raise (A:=A) e w)).
Proof. constructor. Qed.

Lemma call_probe_trace_Forall (P : event -> Prop) p (w : W) :
  (forall b, P (Probed p b)) -> Forall P (trace_of (call_probe p w)).
Proof.
  intros Hp. unfold call_probe. destruct (run_probe p w) as [b w'].
  repeat constructor. apply Hp.
Qed.

Lemma call_bootstrap_trace_Forall (P : event -> Prop) c (w : W) :
  P (Bootstrap c) -> Forall P (trace_of (call_bootstrap c w)).
Proof. intros Hc. repeat constructor. exact Hc. Qed.

Lemma call_subprocess_trace_Forall (P : event -> Prop) cmd env (w : W) :
  (forall rc, P (Subprocess cmd env rc)) ->
  Forall P (trace_of (call_subprocess cmd env w)).
Proof.
  intros Hs. unfold call_subprocess. destruct (subprocess_call cmd env w) as [rc w'].
  repeat constructor. apply Hs.
Qed.

Lemma two_variables_engine_env cmd rc : two_variables (Subprocess cmd engine_env rc).
Proof. exact engine_env_two_variables. Qed.

End Environment.

(** Walks through a script, one call after the other, to show that every
    event it can emit satisfies a property. *)
Ltac trace_invariant :=
  repeat first
    [ apply bind_trace_Forall; [|intros]
    | apply ret_trace_Forall
    | apply sys_exit_trace_Forall
    | apply raise_trace_Forall
    | apply emit_trace_Forall
    | apply call_probe_trace_Forall; intros
    | apply call_bootstrap_trace_Forall
    | apply call_subprocess_trace_Forall; intros
    | match goal with |- context [if ?b then _ else _] => destruct b end ].

Section EnvironmentOfOperations.
Context {W : Type} `{Collaborators W}.

Lemma check_two_variables (w : W) : Forall two_variables (trace_of (check w)).
Proof. unfold check, logger_info. trace_invariant; exact I. Qed.

Lemma start_two_variables (w : W) : Forall two_variables (trace_of (start w)).
Proof.
  unfold start. apply bind_trace_Forall; [apply check_two_variables|intros].
  unfold logger_info, logger_error.
  trace_invariant; first [exact I | apply two_variables_engine_env].
Qed.

Lemma stop_two_variables (w : W) : Forall two_variables (trace_of (stop w)).
Proof.
  unfold stop, logger_info, logger_error.
  trace_invariant; first [exact I | apply two_variables_engine_env].
Qed.

Lemma restart_two_variables (w : W) : Forall two_variables (trace_of (restart w)).
Proof.
  unfold restart.
  apply bind_trace_Forall; [apply stop_two_variables|intros; apply start_two_variables].
Qed.

Lemma install_two_variables d s u p (w : W) :
  Forall two_variables (trace_of (install d s u p w)).
Proof. unfold install, logger_info. trace_invariant; exact I. Qed.

Lemma status_run (w : W) :
  status w =
    let rsp := subprocess_call status_cmd status_env w in
    (match rsp.1 with
     | returned _ => Return tt
     | raised_OSError => Raised OSError
     end, rsp.2, [Subprocess status_cmd status_env rsp.1]).
Proof.
  unfold status, bind, call_subprocess, ret.
  now destruct (subprocess_call status_cmd status_env w) as [[rc|] w'].
Qed.

Lemma dispatch_env (o : options.t) (w : W) :
  Forall (fun e => two_variables e ∨ status_query e) (trace_of (dispatch o w)).
Proof.
  unfold dispatch.
  repeat match goal with |- context [if truthy ?x then _ else _] => destruct (truthy x) end.
  - apply bind_trace_Forall.
    + unfold logger_error. trace_invariant. now left.
    + intros. eapply Forall_impl; [apply install_two_variables|]. cbn. tauto.
  - apply bind_trace_Forall; [|intros; apply ret_trace_Forall].
    eapply Forall_impl; [apply check_two_variables|]. cbn. tauto.
  - eapply Forall_impl; [apply start_two_variables|]. cbn. tauto.
  - eapply Forall_impl; [apply restart_two_variables|]. cbn. tauto.
  - eapply Forall_impl; [apply stop_two_variables|]. cbn. tauto.
  - rewrite status_run. cbn. constructor; [right|constructor]. cbn.
    split; [reflexivity|apply status_env_one_variable].
  - apply ret_trace_Forall.
Qed.

(** C9, as the code has it. Every supervisor command run by start, stop
    and restart carries exactly two variables, the engine root directory
    and the worker count [str(5)]; the status query carries exactly one,
    the engine root directory; and no invocation of [main] runs a
    supervisor command of another kind. *)
Theorem supervisor_env_by_operation :
  (forall w : W, Forall two_variables (trace_of (start w)))
  ∧ (forall w : W, Forall two_variables (trace_of (stop w)))
  ∧ (forall w : W, Forall two_variables (trace_of (restart w)))
  ∧ (forall w : W, exists rc,
        trace_of (status w) =
          [Subprocess status_cmd {[ "WATCHAD_ENGINE_DIR" := project_dir ]} rc])
  ∧ (forall argv (w : W),
        Forall (fun e => two_variables e ∨ status_query e) (trace_of (main argv w))).
Proof.
  split; [exact start_two_variables|].
  split; [exact stop_two_variables|].
  split; [exact restart_two_variables|].
  split.
  - intros w. rewrite status_run. cbn.
    destruct status_env_one_variable as [-> _]. eauto.
  - intros argv w. unfold main.
    apply bind_trace_Forall.
    + destruct (length argv <? 2)%nat; unfold logger_error, print_help;
        [destruct argv|]; trace_invariant; now left.
    + intros _ w1. apply bind_trace_Forall.
      * unfold parse_args.
        destruct (_process_args _ _ _ _); trace_invariant; now left.
      * intros [o args] w2. apply dispatch_env.
Qed.

(** Only the install branch, past its guard, reaches the bootstrap calls:
    a run of [main] that made one had a command line that [optparse]
    accepted, with [--install] and all four settings non-empty.  This
    covers the command lines of the install verb that stop earlier, on
    [--help] or on a parse error. *)
Lemma bootstrap_needs_complete_config argv (w : W) :
  bootstrap_calls (trace_of (main argv w)) ≠ [] ->
  exists o args,
    _process_args parse_option (tail argv) [] options.defaults = Parsed o args
    ∧ truthy (options.install o) = true
    ∧ truthy (options.domain o) && truthy (options.server o)
        && truthy (options.username o) && truthy (options.password o) = true.
Proof.
  set (quiet := fun e => match e with Bootstrap _ => False | _ => True end).
  assert (Hquiet : forall t, Forall quiet t -> bootstrap_calls t = []).
  { induction 1 as [|e t He _ IH]; [reflexivity|].
    destruct e; cbn in *; solve [exact IH | contradiction]. }
  intros Hcalls.
  destruct (decide (length argv < 2)%nat) as [Hshort|Hlong].
  { rewrite (main_without_arguments _ _ Hshort) in Hcalls.
    destruct argv; now contradict Hcalls. }
  unfold main, parse_args in Hcalls.
  apply Nat.ltb_nlt in Hlong. rewrite Hlong in Hcalls.
  destruct (_process_args parse_option (tail argv) [] options.defaults)
    as [o args| |e] eqn:Hparse; [|now contradict Hcalls..].
  exists o, args. split; [reflexivity|].
  assert (Hd : bootstrap_calls (trace_of (dispatch o w)) ≠ []).
  { revert Hcalls. unfold bind, ret. cbn.
    now destruct (dispatch o w) as [[r w'] t]. }
  clear Hcalls. revert Hd. unfold dispatch.
  destruct (truthy (options.install o)).
  - intros Hd. split; [reflexivity|].
    destruct (truthy (options.domain o)), (truthy (options.server o)),
      (truthy (options.username o)), (truthy (options.password o));
      solve [reflexivity | now contradict Hd].
  - intros Hd. contradict Hd. apply Hquiet.
    repeat match goal with
           | |- context [if truthy ?x then _ else _] => destruct (truthy x)
           end.
    + unfold check, logger_info. subst quiet. trace_invariant; exact I.
    + unfold start, check, logger_info, logger_error. subst quiet.
      trace_invariant; exact I.
    + unfold restart, stop, start, check, logger_info, logger_error. subst quiet.
      trace_invariant; exact I.
    + unfold stop, logger_info, logger_error. subst quiet. trace_invariant; exact I.
    + unfold status. subst quiet. trace_invariant; exact I.
    + constructor.
Qed.

End EnvironmentOfOperations.

(** * The properties at work in the laboratory world *)

(** The message queue is down, the other two probes answer true: [start]
    is refused. *)
Lemma start_refused_when_mq_down :
  outcome (check Lab.mq_down) = Return false
  ∧ (start Lab.mq_down
       = (SystemExit (-1), world_after (check Lab.mq_down), trace_of (check Lab.mq_down))
     ∧ subprocess_cmds (trace_of (start Lab.mq_down)) = []
     ∧ forall prog, exit_code (outcome (main [prog; "--start"] Lab.mq_down)) = -1).
Proof.
  split; [reflexivity|].
  apply (start_refused_when_check_fails Lab.mq_down). reflexivity.
Defined.

(** Everything is ready and [supervisord] exits with 1. *)
Lemma start_failure_with_exit_code_1 :
  check Lab.supervisor_fails
    = (Return true, Lab.supervisor_fails, trace_of (check Lab.supervisor_fails))
  ∧ subprocess_call supervisord_cmd engine_env Lab.supervisor_fails
    = (returned 1, Lab.supervisor_fails)
  ∧ 1 ≠ 0
  ∧ (start Lab.supervisor_fails
       = (Return tt, Lab.supervisor_fails,
          trace_of (check Lab.supervisor_fails)
            ++ [Log INFO "Starting the WatchAD detect engine ...";
                Subprocess supervisord_cmd engine_env (returned 1);
                Log ERROR "Start failed."])
     ∧ subprocess_cmds (trace_of (start Lab.supervisor_fails)) = [supervisord_cmd]
     ∧ forall prog, exit_code (outcome (main [prog; "--start"] Lab.supervisor_fails)) = 0).
Proof.
  split; [reflexivity|]. split; [reflexivity|]. split; [discriminate|].
  apply (start_failure_is_logged_only Lab.supervisor_fails Lab.supervisor_fails
           (trace_of (check Lab.supervisor_fails)) 1 Lab.supervisor_fails);
    [reflexivity|reflexivity|discriminate].
Defined.

(** [WatchAD.py --install -d corp.example.com]: server, user and password
    are missing. *)
Lemma install_with_domain_only_is_rejected :
  let argv := ["WatchAD.py"; "--install"; "-d"; "corp.example.com"] in
  let o := options.set_value Domain "corp.example.com"
             (options.set_flag Install options.defaults) in
  (2 <= length argv)%nat
  ∧ _process_args parse_option (tail argv) [] options.defaults = Parsed o []
  ∧ truthy (options.install o) = true
  ∧ truthy (options.domain o) && truthy (options.server o)
      && truthy (options.username o) && truthy (options.password o) = false
  ∧ (main argv Lab.healthy =
       (SystemExit 1, Lab.healthy,
        [Log ERROR "WatchAD install action must provide domain, server, user and password params."])
     ∧ bootstrap_calls (trace_of (main argv Lab.healthy)) = []
     ∧ exit_code (outcome (main argv Lab.healthy)) = 1).
Proof.
  cbv zeta.
  split; [cbn; lia|]. split; [reflexivity|]. split; [reflexivity|]. split; [reflexivity|].
  apply (install_rejects_incomplete_config
           ["WatchAD.py"; "--install"; "-d"; "corp.example.com"]
           (options.set_value Domain "corp.example.com"
              (options.set_flag Install options.defaults)) [] Lab.healthy);
    [cbn; lia|reflexivity|reflexivity|reflexivity].
Defined.

(** [WatchAD.py --stop --check]: check comes before stop in the chain, so
    the run is that of [--check] alone. *)
Lemma stop_and_check_runs_check :
  let argv := ["WatchAD.py"; "--stop"; "--check"] in
  let o := options.set_flag Check (options.set_flag Stop options.defaults) in
  (2 <= length argv)%nat
  ∧ _process_args parse_option (tail argv) [] options.defaults = Parsed o []
  ∧ selected_verb o = Some Check
  ∧ (main argv Lab.healthy = run_verb Check o Lab.healthy
     ∧ main argv Lab.healthy = dispatch (only Check o) Lab.healthy
     ∧ options.flag Check (only Check o) = options.flag Check o
     ∧ (forall v', v' <> Check -> options.flag v' (only Check o) = None)).
Proof.
  cbv zeta.
  split; [cbn; lia|]. split; [reflexivity|]. split; [reflexivity|].
  apply (first_verb_in_precedence_wins
           ["WatchAD.py"; "--stop"; "--check"]
           (options.set_flag Check (options.set_flag Stop options.defaults))
           [] Check Lab.healthy);
    [cbn; lia|reflexivity|reflexivity].
Defined.



(** [WatchAD.py --install -d]: an install invocation with all four
    parameters missing, which [optparse] rejects before [main] looks at
    the options; the exit code is 2, not 1. *)
Lemma install_with_dangling_option_exits_2 :
  main ["WatchAD.py"; "--install"; "-d"] Lab.healthy
    = (SystemExit 2, Lab.healthy, [ParserError (requires_argument "-d")])
  ∧ exit_code (outcome (main ["WatchAD.py"; "--install"; "-d"] Lab.healthy)) ≠ 1.
Proof.
  assert (Hrun : main ["WatchAD.py"; "--install"; "-d"] Lab.healthy
                 = (SystemExit 2, Lab.healthy, [ParserError (requires_argument "-d")]))
    by reflexivity.
  split; [exact Hrun|]. rewrite Hrun. discriminate.
Qed.

(** [WatchAD.py --status]: the one supervisor command of the run does not
    carry two variables. *)
Lemma status_query_lacks_worker_count :
  ¬ Forall two_variables (trace_of (main ["WatchAD.py"; "--status"] Lab.healthy)).
Proof.
  intros Hall.
  assert (Hrun : trace_of (main ["WatchAD.py"; "--status"] Lab.healthy)
                 = [Subprocess status_cmd status_env (returned 0)]) by reflexivity.
  rewrite Hrun in Hall. inversion Hall as [|e t Hhead _]; subst.
  destruct Hhead as [Hsize _].
  destruct (status_env_one_variable (W:=Lab.world)) as (_ & Hone & _).
  rewrite Hone in Hsize. discriminate Hsize.
Qed.

(** * Further properties of the script *)

Section MoreMonadFacts.
Context {W : Type}.

Lemma bind_outcome {A B} (m : M W A) (k : A -> M W B) w :
  outcome (bind m k w) =
    match outcome (m w) with
    | Return a => outcome (k a (world_after (m w)))
    | SystemExit c => SystemExit c
    | Raised e => Raised e
    end.
Proof.
  unfold bind. destruct (m w) as [[[a|c|e] w1] t1]; cbn; [|reflexivity..].
  now destruct (k a w1) as [[r w2] t2].
Qed.

Lemma bind_run {A B} (m : M W A) (k : A -> M W B) w a :
  outcome (m w) = Return a ->
  bind m k w =
    (outcome (k a (world_after (m w))), world_after (k a (world_after (m w))),
     trace_of (m w) ++ trace_of (k a (world_after (m w)))).
Proof.
  intros Hm. destruct (m w) as [[r w1] t1] eqn:Hrun. cbn in Hm. subst r.
  now apply bind_returns.
Qed.

End MoreMonadFacts.

Section VerbsAlone.
Context {W : Type} `{Collaborators W}.

Lemma main_of_flag prog (v : verb) (w : W) :
  main [prog; verb_flag v] w = dispatch (options.set_flag v options.defaults) w.
Proof.
  apply (main_parsed [prog; verb_flag v] _ []); [cbn; lia|].
  destruct v; reflexivity.
Qed.

Lemma dispatch_alone (v : verb) (w : W) :
  dispatch (options.set_flag v options.defaults) w = alone v w.
Proof.
  destruct v; reflexivity.
Qed.

(** Each verb flag, alone on the command line, runs the function of its
    verb, whatever the program name and the world; [--install] alone is
    refused by the guard of its branch.  The flag is the one registered
    for the verb in [parse_option]. *)
Theorem main_runs_the_verb_of_its_flag prog (v : verb) (w : W) :
  get (verb_flag v) (_long_opt parse_option) = Some (store_true v)
  ∧ main [prog; verb_flag v] w = alone v w.
Proof.
  split; [now destruct v|].
  rewrite main_of_flag. apply dispatch_alone.
Qed.

(** [--check] on the command line: the run is that of [check], and the
    process ends with exit code 0 whether [check] returned true or
    false, since [main] drops the value. *)
Theorem main_check_always_exits_0 prog (w : W) :
  main [prog; "--check"] w = (Return tt, world_after (check w), trace_of (check w))
  ∧ exit_code (outcome (main [prog; "--check"] w)) = 0.
Proof.
  assert (Hrun : main [prog; "--check"] w
                 = (Return tt, world_after (check w), trace_of (check w))).
  { rewrite (main_of_flag prog Check), dispatch_alone. cbn [alone].
    destruct (check_returns w) as [b Hb].
    rewrite (bind_run _ _ _ _ Hb). cbn. now rewrite app_nil_r. }
  now rewrite Hrun.
Qed.

(** [--status] on the command line: one supervisor query and nothing
    else, no log line.  When the query returns, the process ends with
    exit code 0 whatever the query's exit code; when it raises, nothing
    catches the [OSError] and the process ends with 1. *)
Theorem main_status_drops_the_exit_code prog (w : W) :
  let rsp :=
    subprocess_call ("supervisorctl -c " +:+ project_dir +:+ "/supervisor.conf status")
                    status_env w in
  main [prog; "--status"] w
    = (match rsp.1 with
       | returned _ => Return tt
       | raised_OSError => Raised OSError
       end, rsp.2,
       [Subprocess ("supervisorctl -c " +:+ project_dir +:+ "/supervisor.conf status")
                   status_env rsp.1])
  ∧ exit_code (outcome (main [prog; "--status"] w))
    = match rsp.1 with
      | returned _ => 0
      | raised_OSError => 1
      end.
Proof.
  cbn zeta.
  change ("supervisorctl -c " +:+ project_dir +:+ "/supervisor.conf status")
    with status_cmd.
  assert (Hrun : main [prog; "--status"] w = status w).
  { rewrite (main_of_flag prog Status). apply dispatch_alone. }
  rewrite Hrun, status_run. cbn zeta.
  split; [reflexivity|]. cbn. now destruct (subprocess_call _ _ _).1.
Qed.

(** When both of its supervisor commands return, [stop] logs an error
    for exactly those that exit with a non-zero code, and [--stop] ends
    with exit code 0 whatever the two codes are. *)
Theorem stop_logs_each_failure_and_exits_0 prog (w : W) rc1 w1 rc2 w2 :
  subprocess_call ("supervisorctl -c " +:+ project_dir +:+ "/supervisor.conf stop all")
                  engine_env w = (returned rc1, w1) ->
  subprocess_call ("supervisorctl -c " +:+ project_dir +:+ "/supervisor.conf shutdown")
                  engine_env w1 = (returned rc2, w2) ->
  errors_logged (trace_of (stop w))
    = (if rc1 =? 0 then [] else ["Stop failed."])
      ++ (if rc2 =? 0 then [] else ["Shutdown WatchAD failed."])
  ∧ exit_code (outcome (main [prog; "--stop"] w)) = 0.
Proof.
  change ("supervisorctl -c " +:+ project_dir +:+ "/supervisor.conf stop all")
    with stop_all_cmd.
  change ("supervisorctl -c " +:+ project_dir +:+ "/supervisor.conf shutdown")
    with shutdown_cmd.
  intros Hstop Hshutdown.
  assert (Hrun : stop w =
            (Return tt, w2,
             [Log INFO "Stopping the WatchAD detect engine ...";
              Subprocess stop_all_cmd engine_env (returned rc1);
              if rc1 =? 0 then Log INFO "Stopped detection processes."
              else Log ERROR "Stop failed.";
              Subprocess shutdown_cmd engine_env (returned rc2);
              if rc2 =? 0 then Log INFO "Shutdown WatchAD."
              else Log ERROR "Shutdown WatchAD failed."])).
  { rewrite stop_run. cbn zeta. rewrite Hstop. cbn [fst snd]. now rewrite Hshutdown. }
  split.
  - rewrite Hrun. cbn. destruct (rc1 =? 0), (rc2 =? 0); reflexivity.
  - rewrite (main_of_flag prog Stop), dispatch_alone. cbn [alone].
    now rewrite Hrun.
Qed.

(** Where [check] passes and [supervisord] exits with 0, [start] logs
    "Started!" after its single supervisor command, logs no error, and
    returns. *)
Theorem start_success_is_logged w w1 t1 w2 :
  check w = (Return true, w1, t1) ->
  subprocess_call supervisord_cmd engine_env w1 = (returned 0, w2) ->
  start w = (Return tt, w2,
             t1 ++ [Log INFO "Starting the WatchAD detect engine ...";
                    Subprocess supervisord_cmd engine_env (returned 0);
                    Log INFO "Started!"])
  ∧ errors_logged (trace_of (start w)) = [].
Proof.
  intros Hc Hsub.
  rewrite (start_when_check_passes _ _ _ Hc), Hsub. cbn.
  split; [reflexivity|].
  unfold errors_logged. rewrite omap_app. cbn. rewrite app_nil_r.
  pose proof (check_run w) as Hrun. rewrite Hc in Hrun. cbn zeta in Hrun.
  repeat match type of Hrun with
         | context [negb ?b] => destruct b; cbn in Hrun
         end; now inversion Hrun.
Qed.

(** [check] only asks its probes and logs: it always returns, makes no
    bootstrap call and runs no supervisor command, logs no error, and
    its success message is in the log exactly when it returns true. *)
Theorem check_only_probes_and_logs (w : W) :
  (exists b, outcome (check w) = Return b)
  ∧ bootstrap_calls (trace_of (check w)) = []
  ∧ subprocess_cmds (trace_of (check w)) = []
  ∧ errors_logged (trace_of (check w)) = []
  ∧ (outcome (check w) = Return true
     <-> Log INFO "Check the WatchAD environment successfully!" ∈ trace_of (check w)).
Proof.
  split; [apply check_returns|]. split; [|split; [apply check_no_subprocess|]].
  - rewrite check_run. cbn zeta.
    repeat match goal with |- context [negb ?b] => destruct b; cbn end; reflexivity.
  - rewrite check_run. cbn zeta.
    repeat match goal with |- context [negb ?b] => destruct b; cbn end;
      (split; [reflexivity|]);
      (split; [intros Hret; try discriminate Hret; set_solver
              |intros Hin; try reflexivity; exfalso;
               repeat (apply elem_of_cons in Hin as [Hin|Hin]; [discriminate Hin|]);
               now apply elem_of_nil in Hin]).
Qed.


(** Where [check] passes and the [supervisord] call raises, nothing
    catches the [OSError]: [start] ends at the call, with neither
    "Started!" nor "Start failed." in the log, and the process ends with
    exit code 1. *)
Theorem start_ends_where_supervisord_raises w w1 t1 w2 :
  check w = (Return true, w1, t1) ->
  subprocess_call ("supervisord -c " +:+ project_dir +:+ "/supervisor.conf")
                  engine_env w1 = (raised_OSError, w2) ->
  start w = (Raised OSError, w2,
             t1 ++ [Log INFO "Starting the WatchAD detect engine ...";
                    Subprocess ("supervisord -c " +:+ project_dir +:+ "/supervisor.conf")
                               engine_env raised_OSError])
  ∧ forall prog, exit_code (outcome (main [prog; "--start"] w)) = 1.
Proof.
  change ("supervisord -c " +:+ project_dir +:+ "/supervisor.conf")
    with supervisord_cmd.
  intros Hc Hsub.
  assert (Hs : start w = (Raised OSError, w2,
             t1 ++ [Log INFO "Starting the WatchAD detect engine ...";
                    Subprocess supervisord_cmd engine_env raised_OSError])).
  { rewrite (start_when_check_passes _ _ _ Hc). cbn zeta. now rewrite Hsub. }
  split; [exact Hs|].
  intros prog. now rewrite main_start, Hs.
Qed.

(** Where the stop-all call raises, [stop] ends at that call: nothing is
    logged after "Stopping ...", the shutdown command is not attempted,
    and the process ends with exit code 1. *)
Theorem stop_ends_where_stop_all_raises prog (w : W) w1 :
  subprocess_call ("supervisorctl -c " +:+ project_dir +:+ "/supervisor.conf stop all")
                  engine_env w = (raised_OSError, w1) ->
  stop w = (Raised OSError, w1,
            [Log INFO "Stopping the WatchAD detect engine ...";
             Subprocess ("supervisorctl -c " +:+ project_dir +:+ "/supervisor.conf stop all")
                        engine_env raised_OSError])
  ∧ exit_code (outcome (main [prog; "--stop"] w)) = 1.
Proof.
  change ("supervisorctl -c " +:+ project_dir +:+ "/supervisor.conf stop all")
    with stop_all_cmd.
  intros Hstop.
  assert (Hrun : stop w = (Raised OSError, w1,
            [Log INFO "Stopping the WatchAD detect engine ...";
             Subprocess stop_all_cmd engine_env raised_OSError])).
  { rewrite stop_run. cbn zeta. now rewrite Hstop. }
  split; [exact Hrun|].
  rewrite (main_of_flag prog Stop), dispatch_alone. cbn [alone]. now rewrite Hrun.
Qed.

End VerbsAlone.

Section CommandLine.
Context {W : Type} `{Collaborators W}.

(** With no argument after the program name, [main] logs that an action
    is needed, prints the help text and ends in [sys.exit(1)] before the
    command line is parsed; no collaborator is reached. *)
Theorem main_needs_an_argument argv (w : W) :
  length argv = 1%nat ->
  main argv w
    = (SystemExit 1, w, [Log ERROR "WatchAD must run with an action."; PrintHelp])
  ∧ exit_code (outcome (main argv w)) = 1.
Proof.
  intros Hlen. rewrite main_without_arguments by lia.
  destruct argv; [discriminate Hlen|]. split; reflexivity.
Qed.

(** An accepted command line with [--install] and four non-empty settings
    runs [install] on exactly those settings, whatever other verb flags
    it carries, and the process ends with exit code 0. *)
Theorem main_installs_with_the_given_settings argv o args d s u p (w : W) :
  (2 <= length argv)%nat ->
  _process_args parse_option (tail argv) [] options.defaults = Parsed o args ->
  truthy (options.install o) = true ->
  options.domain o = Some d -> options.server o = Some s ->
  options.username o = Some u -> options.password o = Some p ->
  d ≠ "" -> s ≠ "" -> u ≠ "" -> p ≠ "" ->
  main argv w = install d s u p w
  ∧ exit_code (outcome (main argv w)) = 0.
Proof.
  intros Hlen Hparse Hinstall Hd Hs Hu Hp Hd' Hs' Hu' Hp'.
  assert (Hrun : main argv w = install d s u p w).
  { rewrite (main_parsed _ _ _ _ Hlen Hparse).
    unfold dispatch. rewrite Hinstall, Hd, Hs, Hu, Hp.
    destruct d, s, u, p; try congruence. reflexivity. }
  rewrite Hrun. split; reflexivity.
Qed.

(** Without [--install] the four settings play no part: two accepted
    command lines that set the same verb flags run alike, whatever
    [-d], [-s], [-u] and [-p] say on either. *)
Theorem settings_matter_to_install_only argv argv' o o' args args' (w : W) :
  (2 <= length argv)%nat -> (2 <= length argv')%nat ->
  _process_args parse_option (tail argv) [] options.defaults = Parsed o args ->
  _process_args parse_option (tail argv') [] options.defaults = Parsed o' args' ->
  (forall v, options.flag v o = options.flag v o') ->
  truthy (options.install o) = false ->
  main argv w = main argv' w.
Proof.
  intros Hlen Hlen' Hparse Hparse' Hflags Hinstall.
  rewrite (main_parsed _ _ _ _ Hlen Hparse), (main_parsed _ _ _ _ Hlen' Hparse').
  pose proof (Hflags Install) as Hi. pose proof (Hflags Check) as Hc.
  pose proof (Hflags Start) as Hst. pose proof (Hflags Restart) as Hr.
  pose proof (Hflags Stop) as Hsp. pose proof (Hflags Status) as Hstt.
  cbn in Hi, Hc, Hst, Hr, Hsp, Hstt.
  unfold dispatch. rewrite <- Hi, <- Hc, <- Hst, <- Hr, <- Hsp, <- Hstt, Hinstall.
  reflexivity.
Qed.

Lemma start_outcome (w : W) :
  outcome (start w) = Return tt ∨ outcome (start w) = SystemExit (-1)
  ∨ outcome (start w) = Raised OSError.
Proof.
  destruct (check w) as [[r w1] t1] eqn:Hc.
  destruct (check_returns w) as [b Hb]. rewrite Hc in Hb. cbn in Hb. subst r.
  destruct b.
  - rewrite (start_when_check_passes _ _ _ Hc). cbn zeta.
    destruct (subprocess_call supervisord_cmd engine_env w1).1; [now left|].
    now right; right.
  - right; left. now rewrite (start_when_check_fails _ _ _ Hc).
Qed.

Lemma dispatch_exit_code (o : options.t) (w : W) :
  exit_code (outcome (dispatch o w)) ∈ [0; 1; -1].
Proof.
  unfold dispatch.
  repeat match goal with
         | |- context [if truthy ?x then _ else _] => destruct (truthy x)
         end.
  - rewrite bind_outcome.
    destruct (_ || _); cbn; set_solver.
  - rewrite bind_outcome. destruct (check_returns w) as [b ->]. cbn. set_solver.
  - destruct (start_outcome w) as [-> | [-> | ->]]; cbn; set_solver.
  - unfold restart. rewrite bind_outcome.
    destruct (stop_outcome w) as [-> | ->]; [|cbn; set_solver].
    destruct (start_outcome (world_after (stop w))) as [-> | [-> | ->]];
      cbn; set_solver.
  - destruct (stop_outcome w) as [-> | ->]; cbn; set_solver.
  - rewrite status_run. cbn zeta.
    destruct (subprocess_call status_cmd status_env w).1; cbn; set_solver.
  - set_solver.
Qed.

(** Whatever the command line and the world, the process ends with one
    of four exit codes: 0, 1 (no argument, install without its settings,
    or an uncaught exception), 2 (command line rejected by [optparse])
    or -1 (start refused). *)
Theorem main_exit_codes argv (w : W) :
  exit_code (outcome (main argv w)) ∈ [0; 1; 2; -1].
Proof.
  destruct (decide (length argv < 2)%nat) as [Hshort|Hlong].
  { rewrite (main_without_arguments _ _ Hshort). destruct argv; set_solver. }
  destruct (_process_args parse_option (tail argv) [] options.defaults)
    as [o args| |e] eqn:Hparse.
  - assert (Hlen : (2 <= length argv)%nat) by lia.
    rewrite (main_parsed _ _ _ _ Hlen Hparse).
    pose proof (dispatch_exit_code o w) as Hcode.
    repeat (apply elem_of_cons in Hcode as [-> | Hcode]; [repeat constructor|]).
    now apply elem_of_nil in Hcode.
  - unfold main, parse_args. apply Nat.ltb_nlt in Hlong.
    rewrite Hlong, Hparse. set_solver.
  - unfold main, parse_args. apply Nat.ltb_nlt in Hlong.
    rewrite Hlong, Hparse. set_solver.
Qed.

End CommandLine.

(** *** Arguments that are not options *)

Lemma positional_inv a :
  positional a = true ->
  String.eqb a "--" = false ∧ startswith a "--" = false ∧ startswith a "-" = false.
Proof.
  intros Hpos.
  assert (Hdash : startswith a "-" = false).
  { unfold positional in Hpos. now destruct (startswith a "-"). }
  split; [|split; [|exact Hdash]].
  - destruct a as [|c a']; [reflexivity|].
    change (String.eqb (String c a') "--")
      with (if Ascii.eqb c "-" then String.eqb a' "-" else false).
    destruct (Ascii.eqb_spec c "-"%char) as [->|Hne]; [|reflexivity].
    destruct a'; discriminate Hdash.
  - destruct a as [|c a']; [reflexivity|].
    change (startswith (String c a') "-")
      with (if ascii_dec "-" c then String.prefix "" a' else false) in Hdash.
    change (startswith (String c a') "--")
      with (if ascii_dec "-" c then String.prefix "-" a' else false).
    destruct (ascii_dec "-" c); [|reflexivity].
    destruct a'; discriminate Hdash.
Qed.

(** A cluster of short options that is complete without the argument
    that follows it does not take that argument. *)
Lemma short_opts_without_next parser chars values values' took :
  _process_short_opts parser chars None values = ShortDone values' took ->
  took = false
  ∧ forall next, _process_short_opts parser chars next values = ShortDone values' false.
Proof.
  revert values. induction chars as [|ch rest IH]; intros values Hrun.
  - cbn in Hrun. inversion Hrun; subst. now split.
  - cbn [_process_short_opts] in *.
    destruct (get _ _) as [[dest|dest|]|]; try discriminate Hrun.
    + now apply IH.
    + destruct rest; [discriminate Hrun|]. inversion Hrun; subst. now split.
Qed.

Ltac by_induction_hypothesis IH Hrun :=
  match type of Hrun with
  | _process_args _ ?r _ _ = _ =>
      apply (IH r); [cbn [length] in *; lia|exact Hrun]
  end.

(** Appending a positional argument to an accepted argument list only
    appends it to the positional arguments returned. *)
Lemma process_args_trailing_positional parser a :
  positional a = true ->
  forall n rargs largs values o args,
    (length rargs <= n)%nat ->
    _process_args parser rargs largs values = Parsed o args ->
    _process_args parser (rargs ++ [a]) largs values = Parsed o (args ++ [a]).
Proof.
  intros Hpos. destruct (positional_inv a Hpos) as (Heq & Hlong & Hshort).
  assert (Hbase : forall largs values o args,
             _process_args parser [] largs values = Parsed o args ->
             _process_args parser [a] largs values = Parsed o (args ++ [a])).
  { intros largs values o args Hrun. cbn [_process_args] in *.
    rewrite Heq, Hlong, Hshort. cbn. now inversion Hrun. }
  induction n as [|n IH]; intros rargs largs values o args Hlen Hrun.
  { destruct rargs; [now apply Hbase|cbn in Hlen; lia]. }
  destruct rargs as [|arg rargs']; [now apply Hbase|].
  cbn [length] in Hlen.
  cbn [_process_args app] in *.
  destruct (String.eqb arg "--").
  { inversion Hrun; subst. now rewrite app_assoc. }
  destruct (startswith arg "--").
  { destruct (split_eq arg) as [opt0 explicit].
    destruct (_match_abbrev opt0 (_long_opt parser)) as [opt|e]; [|discriminate Hrun].
    destruct (get opt (_long_opt parser)) as [[dest|dest|]|];
      destruct explicit as [value|]; try discriminate Hrun;
      try by_induction_hypothesis IH Hrun;
      destruct rargs' as [|value' rargs'']; try discriminate Hrun;
      by_induction_hypothesis IH Hrun. }
  destruct (startswith arg "-" && (1 <? String.length arg)%nat).
  { destruct rargs' as [|next rargs''].
    - cbn [app head] in *.
      destruct (_process_short_opts parser _ None values) as [values' took| |e] eqn:Hs;
        try discriminate Hrun.
      destruct (short_opts_without_next _ _ _ _ _ Hs) as [-> Hany].
      rewrite Hany. by_induction_hypothesis IH Hrun.
    - cbn [app head] in *.
      destruct (_process_short_opts parser _ (Some next) values) as [values' [] | |e];
        try discriminate Hrun; by_induction_hypothesis IH Hrun. }
  by_induction_hypothesis IH Hrun.
Qed.

Section TrailingArguments.
Context {W : Type} `{Collaborators W}.

(** An argument that does not begin with a dash, added at the end of a
    command line that is accepted, changes nothing: [main] never looks at
    the positional arguments that [parse_args] returns. *)
Theorem trailing_positional_argument_is_ignored argv a o args (w : W) :
  (2 <= length argv)%nat ->
  _process_args parse_option (tail argv) [] options.defaults = Parsed o args ->
  positional a = true ->
  main (argv ++ [a]) w = main argv w.
Proof.
  intros Hlen Hparse Hpos.
  rewrite (main_parsed argv o args w Hlen Hparse).
  apply (main_parsed (argv ++ [a]) o (args ++ [a])).
  - rewrite length_app. lia.
  - destruct argv as [|prog rargs]; [cbn in Hlen; lia|]. cbn [tail app] in *.
    now apply (process_args_trailing_positional _ _ Hpos (length rargs)).
Qed.
End TrailingArguments.

(** *** Abbreviated flags *)

Lemma startswith_refl s : startswith s s = true.
Proof.
  unfold startswith. induction s as [|c s IH]; [reflexivity|].
  cbn [String.prefix]. now destruct (ascii_dec c c).
Qed.

Lemma get_Some_elem_of k d a : get k d = Some a -> k ∈ map fst d.
Proof.
  induction d as [|[k' a'] d IH]; [discriminate|].
  cbn [get map fst]. destruct (String.eqb_spec k k') as [->|Hne].
  - intros _. constructor.
  - intros Hget. constructor. now apply IH.
Qed.

(** When exactly one word of the map begins with [s], that word is what
    [_match_abbrev] returns, whether [s] is the word itself or shorter. *)
Lemma match_unique_abbrev s word wordmap :
  filter (fun w => startswith w s) (map fst wordmap) = [word] ->
  _match_abbrev s wordmap = inl word.
Proof.
  intros Hfilter. unfold _match_abbrev.
  destruct (get s wordmap) as [a|] eqn:Hget; [|now rewrite Hfilter].
  apply get_Some_elem_of in Hget.
  assert (Hin : s ∈ filter (fun w => startswith w s) (map fst wordmap)).
  { apply list_elem_of_filter. split; [|exact Hget].
    now rewrite startswith_refl. }
  rewrite Hfilter in Hin. apply list_elem_of_singleton in Hin. now subst.
Qed.

Section AbbreviatedFlags.
Context {W : Type} `{Collaborators W}.

(** A long option without [=] that the flag of a verb, and no other
    registered option, begins with runs that verb just as the full flag
    does: [--sto] stops the engine. *)
Theorem abbreviated_verb_flag_runs_the_verb prog s (v : verb) (w : W) :
  startswith s "--" = true ->
  s ≠ "--" ->
  split_eq s = (s, None) ->
  completions s = [verb_flag v] ->
  main [prog; s] w = main [prog; verb_flag v] w
  ∧ main [prog; s] w = alone v w.
Proof.
  intros Hlong Hbare Hplain Hunique.
  assert (Hrun : main [prog; s] w = alone v w).
  { rewrite <- dispatch_alone.
    apply (main_parsed [prog; s] _ []); [cbn; lia|].
    cbn [tail _process_args].
    apply String.eqb_neq in Hbare. rewrite Hbare, Hlong, Hplain.
    rewrite (match_unique_abbrev _ _ _ Hunique).
    now destruct v. }
  split; [|exact Hrun].
  now rewrite Hrun, main_of_flag, dispatch_alone.
Qed.

End AbbreviatedFlags.

(** * The further properties at work in the laboratory world *)

(** Everything is ready and [supervisord] exits with 0. *)
Lemma start_success_when_healthy :
  check Lab.healthy = (Return true, Lab.healthy, trace_of (check Lab.healthy))
  ∧ subprocess_call supervisord_cmd engine_env Lab.healthy = (returned 0, Lab.healthy)
  ∧ (start Lab.healthy
       = (Return tt, Lab.healthy,
          trace_of (check Lab.healthy)
            ++ [Log INFO "Starting the WatchAD detect engine ...";
                Subprocess supervisord_cmd engine_env (returned 0);
                Log INFO "Started!"])
     ∧ errors_logged (trace_of (start Lab.healthy)) = []).
Proof.
  split; [reflexivity|]. split; [reflexivity|].
  apply (start_success_is_logged Lab.healthy Lab.healthy
           (trace_of (check Lab.healthy)) Lab.healthy); reflexivity.
Defined.

(** [WatchAD.py] with nothing after it. *)
Lemma main_with_program_name_only :
  length ["WatchAD.py"] = 1%nat
  ∧ (main ["WatchAD.py"] Lab.healthy
       = (SystemExit 1, Lab.healthy,
          [Log ERROR "WatchAD must run with an action."; PrintHelp])
     ∧ exit_code (outcome (main ["WatchAD.py"] Lab.healthy)) = 1).
Proof.
  split; [reflexivity|].
  apply (main_needs_an_argument ["WatchAD.py"] Lab.healthy). reflexivity.
Defined.

(** Both supervisor commands of [stop] exit with 1: two errors in the
    log, and exit code 0. *)
Lemma stop_with_both_commands_failing :
  subprocess_call ("supervisorctl -c " +:+ project_dir +:+ "/supervisor.conf stop all")
                  engine_env Lab.supervisor_fails = (returned 1, Lab.supervisor_fails)
  ∧ subprocess_call ("supervisorctl -c " +:+ project_dir +:+ "/supervisor.conf shutdown")
                    engine_env Lab.supervisor_fails = (returned 1, Lab.supervisor_fails)
  ∧ (errors_logged (trace_of (stop Lab.supervisor_fails))
       = ["Stop failed."; "Shutdown WatchAD failed."]
     ∧ exit_code (outcome (main ["WatchAD.py"; "--stop"] Lab.supervisor_fails)) = 0).
Proof.
  split; [reflexivity|]. split; [reflexivity|].
  exact (stop_logs_each_failure_and_exits_0 "WatchAD.py" Lab.supervisor_fails
           1 Lab.supervisor_fails 1 Lab.supervisor_fails eq_refl eq_refl).
Defined.


(** A complete install command line, with a second verb that is not run. *)
Lemma install_with_all_settings :
  let argv := ["WatchAD.py"; "--install"; "-d"; "corp.example.com"; "-s"; "dc01.corp.example.com";
               "-u"; "CORP\peter"; "-p"; "secret"; "--stop"] in
  let o := options.mk (Some true) (Some "corp.example.com") (Some "dc01.corp.example.com")
             (Some "CORP\peter") (Some "secret") None None None (Some true) None in
  (2 <= length argv)%nat
  ∧ _process_args parse_option (tail argv) [] options.defaults = Parsed o []
  ∧ truthy (options.install o) = true
  ∧ (main argv Lab.healthy
       = install "corp.example.com" "dc01.corp.example.com" "CORP\peter" "secret" Lab.healthy
     ∧ exit_code (outcome (main argv Lab.healthy)) = 0).
Proof.
  cbv zeta.
  split; [cbn; lia|]. split; [reflexivity|]. split; [reflexivity|].
  apply (main_installs_with_the_given_settings
           ["WatchAD.py"; "--install"; "-d"; "corp.example.com"; "-s"; "dc01.corp.example.com";
            "-u"; "CORP\peter"; "-p"; "secret"; "--stop"]
           (options.mk (Some true) (Some "corp.example.com") (Some "dc01.corp.example.com")
              (Some "CORP\peter") (Some "secret") None None None (Some true) None)
           [] "corp.example.com" "dc01.corp.example.com" "CORP\peter" "secret" Lab.healthy);
    first [cbn; lia | reflexivity | discriminate].
Defined.

(** The same command line made bootstrap calls, so its configuration was
    complete. *)
Lemma bootstrap_calls_of_a_complete_install :
  let argv := ["WatchAD.py"; "--install"; "-d"; "corp.example.com"; "-s"; "dc01.corp.example.com";
               "-u"; "CORP\peter"; "-p"; "secret"] in
  bootstrap_calls (trace_of (main argv Lab.healthy)) ≠ []
  ∧ exists o args,
      _process_args parse_option (tail argv) [] options.defaults = Parsed o args
      ∧ truthy (options.install o) = true
      ∧ truthy (options.domain o) && truthy (options.server o)
          && truthy (options.username o) && truthy (options.password o) = true.
Proof.
  cbv zeta. split; [discriminate|].
  apply (bootstrap_needs_complete_config
           ["WatchAD.py"; "--install"; "-d"; "corp.example.com"; "-s"; "dc01.corp.example.com";
            "-u"; "CORP\peter"; "-p"; "secret"] Lab.healthy).
  discriminate.
Defined.

(** [--stop -d corp.example.com] runs as [--stop]. *)
Lemma stop_with_a_domain_runs_as_stop :
  let argv := ["WatchAD.py"; "--stop"; "-d"; "corp.example.com"] in
  let argv' := ["WatchAD.py"; "--stop"] in
  let o := options.set_value Domain "corp.example.com"
             (options.set_flag Stop options.defaults) in
  let o' := options.set_flag Stop options.defaults in
  (2 <= length argv)%nat ∧ (2 <= length argv')%nat
  ∧ _process_args parse_option (tail argv) [] options.defaults = Parsed o []
  ∧ _process_args parse_option (tail argv') [] options.defaults = Parsed o' []
  ∧ (forall v, options.flag v o = options.flag v o')
  ∧ truthy (options.install o) = false
  ∧ main argv Lab.supervisor_fails = main argv' Lab.supervisor_fails.
Proof.
  cbv zeta.
  split; [cbn; lia|]. split; [cbn; lia|]. split; [reflexivity|]. split; [reflexivity|].
  split; [intros []; reflexivity|]. split; [reflexivity|].
  apply (settings_matter_to_install_only
           ["WatchAD.py"; "--stop"; "-d"; "corp.example.com"] ["WatchAD.py"; "--stop"]
           (options.set_value Domain "corp.example.com"
              (options.set_flag Stop options.defaults))
           (options.set_flag Stop options.defaults) [] [] Lab.supervisor_fails);
    first [cbn; lia | reflexivity | intros []; reflexivity].
Defined.

(** [--stop now] runs as [--stop]. *)
Lemma stop_now_runs_as_stop :
  (2 <= length ["WatchAD.py"; "--stop"])%nat
  ∧ _process_args parse_option (tail ["WatchAD.py"; "--stop"]) [] options.defaults
    = Parsed (options.set_flag Stop options.defaults) []
  ∧ positional "now" = true
  ∧ main (["WatchAD.py"; "--stop"] ++ ["now"]) Lab.healthy
    = main ["WatchAD.py"; "--stop"] Lab.healthy.
Proof.
  split; [cbn; lia|]. split; [reflexivity|]. split; [reflexivity|].
  apply (trailing_positional_argument_is_ignored
           ["WatchAD.py"; "--stop"] "now" (options.set_flag Stop options.defaults) []
           Lab.healthy);
    first [cbn; lia | reflexivity].
Defined.

(** [--sto] is short for [--stop] and for nothing else. *)
Lemma sto_runs_stop :
  startswith "--sto" "--" = true
  ∧ "--sto" ≠ "--"
  ∧ split_eq "--sto" = ("--sto", None)
  ∧ completions "--sto" = [verb_flag Stop]
  ∧ (main ["WatchAD.py"; "--sto"] Lab.supervisor_fails
       = main ["WatchAD.py"; verb_flag Stop] Lab.supervisor_fails
     ∧ main ["WatchAD.py"; "--sto"] Lab.supervisor_fails = alone Stop Lab.supervisor_fails).
Proof.
  split; [reflexivity|]. split; [discriminate|]. split; [reflexivity|]. split; [reflexivity|].
  apply (abbreviated_verb_flag_runs_the_verb "WatchAD.py" "--sto" Stop Lab.supervisor_fails);
    first [reflexivity | discriminate].
Defined.

(** Everything is ready, and no supervisor command can be run. *)
Lemma start_on_posix :
  check Lab.posix = (Return true, Lab.posix, trace_of (check Lab.posix))
  ∧ subprocess_call ("supervisord -c " +:+ project_dir +:+ "/supervisor.conf")
                    engine_env Lab.posix = (raised_OSError, Lab.posix)
  ∧ (start Lab.posix
       = (Raised OSError, Lab.posix,
          trace_of (check Lab.posix)
            ++ [Log INFO "Starting the WatchAD detect engine ...";
                Subprocess ("supervisord -c " +:+ project_dir +:+ "/supervisor.conf")
                           engine_env raised_OSError])
     ∧ forall prog, exit_code (outcome (main [prog; "--start"] Lab.posix)) = 1).
Proof.
  split; [reflexivity|]. split; [reflexivity|].
  exact (start_ends_where_supervisord_raises Lab.posix Lab.posix
           (trace_of (check Lab.posix)) Lab.posix eq_refl eq_refl).
Defined.

(** The stop-all command cannot be run. *)
Lemma stop_on_posix :
  subprocess_call ("supervisorctl -c " +:+ project_dir +:+ "/supervisor.conf stop all")
                  engine_env Lab.posix = (raised_OSError, Lab.posix)
  ∧ (stop Lab.posix
       = (Raised OSError, Lab.posix,
          [Log INFO "Stopping the WatchAD detect engine ...";
           Subprocess ("supervisorctl -c " +:+ project_dir +:+ "/supervisor.conf stop all")
                      engine_env raised_OSError])
     ∧ exit_code (outcome (main ["WatchAD.py"; "--stop"] Lab.posix)) = 1).
Proof.
  split; [reflexivity|].
  exact (stop_ends_where_stop_all_raises "WatchAD.py" Lab.posix Lab.posix eq_refl).
Defined.
